(** * QA Test Generator, Angular client: request/response mediation layer

    A shallow embedding of the client-side services and page components
    of [qa-angular-ui]:

    - [ApiService]            (app/services/api.service.ts)
    - [AuthInterceptor]       (app/services/auth.interceptor.ts)
    - [TestGeneratorService]  (app/services/test-generator.service.ts)
    - [GenerateTestComponent] (app/pages/generate-test.component.ts)
    - [TestListComponent]     (app/pages/test-list.component.ts)
    - [DashboardComponent]    (app/pages/dashboard.component.ts)
    - [AppRoutes]             (app/app.routes.ts, layout/sidebar.component.ts)

    JavaScript strings are modelled as [string]; the only character the
    code inspects is the slash, which is a single byte in UTF-8 and never
    occurs inside a multi-byte sequence.  Values of type [any] are
    modelled by [JsValue].  Cold observables of [HttpClient] are request
    descriptors that are dispatched when subscribed to; the browser event
    loop is an explicit runtime holding the component, the requests put
    on the wire and the subscriptions still in flight. *)

From Stdlib Require Import Bool Arith List String Ascii ZArith Lia.
Import ListNotations.
Open Scope string_scope.

Set Implicit Arguments.

(** ** JavaScript strings *)

Module JsString.

Definition slash : ascii := "/"%char.

(** [s.startsWith('/')] *)
Definition startsWith_slash (s : string) : bool :=
  match s with
  | String c _ => Ascii.eqb c slash
  | EmptyString => false
  end.

(** [s.endsWith('/')] *)
Fixpoint endsWith_slash (s : string) : bool :=
  match s with
  | EmptyString => false
  | String c EmptyString => Ascii.eqb c slash
  | String _ rest => endsWith_slash rest
  end.

(** [s.replace(/\/$/, '')]: the pattern has no flags, so [$] matches
    only at the end of the input and at most one match is replaced: a
    single final slash is dropped, anything else is left as it is. *)
Fixpoint replace_trailing_slash (s : string) : string :=
  match s with
  | EmptyString => EmptyString
  | String c EmptyString =>
      if Ascii.eqb c slash then EmptyString else s
  | String c rest => String c (replace_trailing_slash rest)
  end.

(** The string less one leading slash, when it has one. *)
Definition drop_leading_slash (s : string) : string :=
  match s with
  | String c rest => if Ascii.eqb c slash then rest else s
  | EmptyString => EmptyString
  end.

(** Reference normalisations used to state what "exactly one slash
    between base and path" means: every trailing slash of the base and
    every leading slash of the path is removed before joining. *)
Fixpoint trim_leading_slashes (s : string) : string :=
  match s with
  | String c rest =>
      if Ascii.eqb c slash then trim_leading_slashes rest else s
  | EmptyString => EmptyString
  end.

Fixpoint trim_trailing_slashes (s : string) : string :=
  match s with
  | EmptyString => EmptyString
  | String c rest =>
      match trim_trailing_slashes rest with
      | EmptyString => if Ascii.eqb c slash then EmptyString else String c EmptyString
      | r => String c r
      end
  end.

End JsString.

(** ** Values of type [any] *)

#[warnings="-register-all"]
Inductive JsValue : Type :=
| JUndefined
| JNull
| JBool (b : bool)
| JNum (n : Z)
| JStr (s : string)
| JArr (items : list JsValue)
| JObj (fields : list (string * JsValue)).

(** Own properties of an object literal, looked up by key. *)
Fixpoint lookup_field (k : string) (fields : list (string * JsValue)) : option JsValue :=
  match fields with
  | [] => None
  | (k', v) :: rest => if String.eqb k k' then Some v else lookup_field k rest
  end.

(** [k in v] for a plain object; other values own no such field. *)
Definition has_prop (v : JsValue) (k : string) : bool :=
  match v with
  | JObj fields =>
      match lookup_field k fields with
      | Some _ => true
      | None => false
      end
  | _ => false
  end.

(** [v?.k], and [v.k] for a [v] that is neither [null] nor [undefined]:
    an absent property reads as [undefined]. *)
Definition get_prop (v : JsValue) (k : string) : JsValue :=
  match v with
  | JObj fields =>
      match lookup_field k fields with
      | Some x => x
      | None => JUndefined
      end
  | _ => JUndefined
  end.

(** [v == null]: the two values whose properties cannot be read. *)
Definition is_nullish (v : JsValue) : bool :=
  match v with
  | JUndefined | JNull => true
  | _ => false
  end.

(** JavaScript truthiness, as used by [*ngIf]. *)
Definition truthy (v : JsValue) : bool :=
  match v with
  | JUndefined | JNull => false
  | JBool b => b
  | JNum n => negb (Z.eqb n 0)
  | JStr s => negb (String.eqb s "")
  | JArr _ | JObj _ => true
  end.

(** ** HTTP requests as handed to [HttpClient] *)

Inductive HttpMethod := GET | POST | PUT | DELETE.

Record HttpRequest : Type := mkRequest {
  method  : HttpMethod;
  url     : string;
  body    : option JsValue;
  headers : option JsValue;
  params  : option JsValue
}.

(** A cold observable returned by [HttpClient]: nothing is sent until it
    is subscribed to, and each subscription sends the request once. *)
Definition Observable := HttpRequest.

(** ** ApiService *)

Module ApiService.

Import JsString.

(** The service holds [base]; [environment.apiBaseUrl] is the
    environment-specific configuration value, taken as an argument of
    the constructor. *)
Record t : Type := { base : string }.

Definition new (apiBaseUrl : string) : t :=
  {| base := replace_trailing_slash apiBaseUrl |}.

(** [`${this.base}${path.startsWith('/') ? path : '/' + path}`] *)
Definition build_url (self : t) (path : string) : string :=
  base self ++ (if startsWith_slash path then path else "/" ++ path).

Definition get (self : t) (path : string) (params : option JsValue) : Observable :=
  let url := build_url self path in
  mkRequest GET url None None params.

Definition post (self : t) (path : string) (body : JsValue)
           (headers : option JsValue) : Observable :=
  let url := build_url self path in
  mkRequest POST url (Some body) headers None.

Definition put (self : t) (path : string) (body : JsValue) : Observable :=
  let url := build_url self path in
  mkRequest PUT url (Some body) None None.

Definition delete (self : t) (path : string) : Observable :=
  let url := build_url self path in
  mkRequest DELETE url None None None.

(** The URL the spec asks for: base and path with all slashes at the
    joint removed, then joined by one slash. *)
Definition one_slash_join (apiBaseUrl path : string) : string :=
  trim_trailing_slashes apiBaseUrl ++ "/" ++ trim_leading_slashes path.

End ApiService.

(** ** AuthInterceptor *)

(** [HttpHandler]: the rest of the interceptor chain, ending in the
    backend.  Handling a request acts on the world [W] it is sent into. *)
Record HttpHandler (W : Type) : Type := { handle : HttpRequest -> W -> W }.

Module AuthInterceptor.

(** [intercept(req, next) { return next.handle(req); }] *)
Definition intercept (W : Type) (req : HttpRequest) (next : HttpHandler W) : W -> W :=
  handle next req.

End AuthInterceptor.

(** ** Subscriptions and the event loop *)

(** What a subscription of an [HttpClient] observable receives: the
    parsed body of a 2xx response, or an [HttpErrorResponse]. *)
Inductive Notification :=
| NextN (value : JsValue)
| ErrorN (err : JsValue).

(** The [HttpErrorResponse] of a non-2xx answer carries the status and
    the parsed body under [error]. *)
Definition http_error_response (status : Z) (payload : JsValue) : JsValue :=
  JObj [("name", JStr "HttpErrorResponse"); ("ok", JBool false);
        ("status", JNum status); ("error", payload)].

Section Runtime.

(** The component that owns the subscriptions. *)
Variable C : Type.

(** The argument of [subscribe]: [subscribe(f)] installs [f] as the
    [next] callback and no [error] callback. *)
Record Observer : Type := {
  on_next  : JsValue -> C -> C;
  on_error : option (JsValue -> C -> C)
}.

Record Runtime : Type := mkRuntime {
  comp      : C;                           (* the component instance *)
  wire      : list HttpRequest;            (* requests sent, oldest first *)
  inflight  : list (nat * Observer);       (* subscriptions not yet completed *)
  fresh     : nat;                         (* next subscription identifier *)
  unhandled : list JsValue                 (* errors no observer took *)
}.

Definition start (c : C) : Runtime :=
  mkRuntime c [] [] 0 [].

(** The end of the handler chain: the request goes on the wire. *)
Definition backend : HttpHandler Runtime :=
  {| handle := fun req rt =>
       mkRuntime (comp rt) (wire rt ++ [req]) (inflight rt) (fresh rt) (unhandled rt) |}.

(** Subscribing to a cold [HttpClient] observable sends its request
    through the interceptor registered under [HTTP_INTERCEPTORS] and
    keeps the observer until the answer arrives. *)
Definition subscribe (o : Observable) (obs : Observer) (rt : Runtime) : Runtime :=
  let rt1 := AuthInterceptor.intercept o backend rt in
  mkRuntime (comp rt1) (wire rt1) ((fresh rt1, obs) :: inflight rt1)
            (S (fresh rt1)) (unhandled rt1).

Fixpoint find_sub (id : nat) (subs : list (nat * Observer)) : option Observer :=
  match subs with
  | [] => None
  | (i, o) :: rest => if Nat.eqb id i then Some o else find_sub id rest
  end.

Definition drop_sub (id : nat) (subs : list (nat * Observer)) : list (nat * Observer) :=
  filter (fun s => negb (Nat.eqb id (fst s))) subs.

(** The answer to subscription [id] arrives.  An [HttpClient]
    observable notifies once and is then finished.  An error with no
    [error] callback is reported outside the component and leaves the
    component as it was. *)
Definition deliver (id : nat) (n : Notification) (rt : Runtime) : Runtime :=
  match find_sub id (inflight rt) with
  | None => rt
  | Some obs =>
      match n with
      | NextN v =>
          mkRuntime (on_next obs v (comp rt)) (wire rt)
                    (drop_sub id (inflight rt)) (fresh rt) (unhandled rt)
      | ErrorN e =>
          match on_error obs with
          | Some h =>
              mkRuntime (h e (comp rt)) (wire rt)
                        (drop_sub id (inflight rt)) (fresh rt) (unhandled rt)
          | None =>
              mkRuntime (comp rt) (wire rt)
                        (drop_sub id (inflight rt)) (fresh rt) (unhandled rt ++ [e])
          end
      end
  end.

(** No observer in flight has an [error] callback. *)
Definition no_error_callbacks (rt : Runtime) : Prop :=
  Forall (fun s => on_error (snd s) = None) (inflight rt).

End Runtime.

Arguments start {C} c.
Arguments backend {C}.

(** ** TestGeneratorService *)

Module TestGeneratorService.

Record t : Type := { api : ApiService.t }.

(** [interface GenerateRequest { screenId: string; options?: Record<string, unknown> }] *)
Definition GenerateRequest (screenId : string) (options : list (string * JsValue)) : JsValue :=
  JObj [("screenId", JStr screenId); ("options", JObj options)].

(** [generate(screenId, options = {})]: an omitted [options] takes the
    default of the parameter, the empty object. *)
Definition generate (self : t) (screenId : string)
           (options : option (list (string * JsValue))) : Observable :=
  let options :=
    match options with
    | Some o => o
    | None => []
    end in
  let body := GenerateRequest screenId options in
  ApiService.post (api self) "/tests/generate" body None.

End TestGeneratorService.

(** ** GenerateTestComponent *)

Module GenerateTestComponent.

(** [form = fb.group({ screenId: ['', Validators.required] })] and
    [result: any].  The value of the form control is a string or
    [null]. *)
Record t : Type := {
  form_screenId : option string;
  result : JsValue
}.

Definition new : t :=
  {| form_screenId := Some ""; result := JUndefined |}.

(** [Validators.required]: the control is invalid when its value is
    [null] or of length zero. *)
Definition form_valid (self : t) : bool :=
  match form_screenId self with
  | Some s => negb (String.eqb s "")
  | None => false
  end.

(** [res => (this.result = res)] *)
Definition set_result (res : JsValue) (self : t) : t :=
  {| form_screenId := form_screenId self; result := res |}.

(** The user types into the Screen ID input. *)
Definition input (s : string) (self : t) : t :=
  {| form_screenId := Some s; result := result self |}.

Section WithServices.

Variable gen : TestGeneratorService.t.

(** [submit()] *)
Definition submit (rt : Runtime t) : Runtime t :=
  if form_valid (comp rt) then
    match form_screenId (comp rt) with
    | Some screenId =>
        subscribe (TestGeneratorService.generate gen screenId None)
                  {| on_next := set_result; on_error := None |} rt
    | None => rt
    end
  else rt.

(** What can happen to the page: typing, submitting the form, and
    the answer to an earlier request arriving. *)
Inductive Event :=
| Input (s : string)
| Submit
| Resolve (id : nat) (n : Notification).

Definition step (rt : Runtime t) (ev : Event) : Runtime t :=
  match ev with
  | Input s =>
      mkRuntime (input s (comp rt)) (wire rt) (inflight rt) (fresh rt) (unhandled rt)
  | Submit => submit rt
  | Resolve id n => deliver id n rt
  end.

Definition run (evs : list Event) (rt : Runtime t) : Runtime t :=
  fold_left step evs rt.

End WithServices.

(** The template: [<div *ngIf="result"> ... {{ result | json }}]. *)
Definition view (self : t) : option JsValue :=
  if truthy (result self) then Some (result self) else None.

End GenerateTestComponent.

(** ** TestListComponent *)

Module TestListComponent.

(** [tests: any[] = []] *)
Record t : Type := { tests : JsValue }.

Definition new : t := {| tests := JArr [] |}.

(** [(x: any) => (this.tests = x)] *)
Definition set_tests (x : JsValue) (self : t) : t :=
  {| tests := x |}.

Section WithServices.

Variable api : ApiService.t.

(** [ngOnInit()] *)
Definition ngOnInit (rt : Runtime t) : Runtime t :=
  subscribe (ApiService.get api "/tests" None)
            {| on_next := set_tests; on_error := None |} rt.

Inductive Event :=
| Init
| Resolve (id : nat) (n : Notification).

Definition step (rt : Runtime t) (ev : Event) : Runtime t :=
  match ev with
  | Init => ngOnInit rt
  | Resolve id n => deliver id n rt
  end.

Definition run (evs : list Event) (rt : Runtime t) : Runtime t :=
  fold_left step evs rt.

End WithServices.

(** An event that hands a response body to the component. *)
Definition is_resolution (ev : Event) : bool :=
  match ev with
  | Resolve _ (NextN _) => true
  | _ => false
  end.

(** One list item, [{{t.testId}} ... {{t.status}}]: the template reads
    the two properties without [?.], so an element that is [null] or
    [undefined] makes the read throw a TypeError; on any other element
    an absent property reads as [undefined]. *)
Definition render_entry (t : JsValue) : option (JsValue * JsValue) :=
  if is_nullish t then None
  else Some (get_prop t "testId", get_prop t "status").

(** The items of the list, in order; one throwing item fails the
    rendering. *)
Fixpoint render_entries (items : list JsValue) : option (list (JsValue * JsValue)) :=
  match items with
  | [] => Some []
  | t :: rest =>
      match render_entry t, render_entries rest with
      | Some e, Some es => Some (e :: es)
      | _, _ => None
      end
  end.

(** The template:
    [<mat-list-item *ngFor="let t of tests">{{t.testId}} ... {{t.status}}].
    [NgForOf] renders one entry per element of an array and nothing for
    [null] or [undefined]; any other value makes it throw. *)
Definition view (self : t) : option (list (JsValue * JsValue)) :=
  match tests self with
  | JArr items => render_entries items
  | JUndefined | JNull => Some []
  | _ => None
  end.

End TestListComponent.

(** ** Scenarios

    Concrete values taken from the README's example exchange, used to
    run the model. *)

Module Scenario.

Definition api : ApiService.t := ApiService.new "http://localhost:8000/api".

Definition gen : TestGeneratorService.t := {| TestGeneratorService.api := api |}.

(** [{ testId: "tst_789", status: "queued", tests: [] }] *)
Definition queued_response : JsValue :=
  JObj [("testId", JStr "tst_789"); ("status", JStr "queued"); ("tests", JArr [])].

(** A later answer to another submission. *)
Definition passed_response : JsValue :=
  JObj [("testId", JStr "tst_790"); ("status", JStr "passed");
        ("tests", JArr [JObj [("testId", JStr "tst_1"); ("status", JStr "passed")]])].

(** A queued job's answer that leaves [tests] out. *)
Definition response_without_tests : JsValue :=
  JObj [("testId", JStr "tst_789"); ("status", JStr "queued")].

(** [{ code: "RATE_LIMIT", message: "too many requests" }] *)
Definition rate_limit : JsValue :=
  JObj [("code", JStr "RATE_LIMIT"); ("message", JStr "too many requests")].

(** A 2xx envelope carrying both [data] and a non-null [error]. *)
Definition envelope_with_error : JsValue :=
  JObj [("data", queued_response); ("error", rate_limit)].

End Scenario.

(** ** DashboardComponent *)

Module DashboardComponent.

(** [summary: any], left unassigned by the constructor. *)
Record t : Type := { summary : JsValue }.

Definition new : t := {| summary := JUndefined |}.

(** [x => (this.summary = x)] *)
Definition set_summary (x : JsValue) (self : t) : t :=
  {| summary := x |}.

Section WithServices.

Variable api : ApiService.t.

(** [ngOnInit()] *)
Definition ngOnInit (rt : Runtime t) : Runtime t :=
  subscribe (ApiService.get api "/dashboard/summary" None)
            {| on_next := set_summary; on_error := None |} rt.

Inductive Event :=
| Init
| Resolve (id : nat) (n : Notification).

Definition step (rt : Runtime t) (ev : Event) : Runtime t :=
  match ev with
  | Init => ngOnInit rt
  | Resolve id n => deliver id n rt
  end.

Definition run (evs : list Event) (rt : Runtime t) : Runtime t :=
  fold_left step evs rt.

End WithServices.

Definition is_resolution (ev : Event) : bool :=
  match ev with
  | Resolve _ (NextN _) => true
  | _ => false
  end.

(** The template: two paragraphs, each under [*ngIf="summary"]:
    [Active Jobs: {{summary.activeJobs}}] and
    [Last Run: {{summary.lastRun}}].  The view lists the paragraphs
    rendered, as label and interpolated value. *)
Definition view (self : t) : list (string * JsValue) :=
  (if truthy (summary self)
   then [("Active Jobs: ", get_prop (summary self) "activeJobs")]
   else [])
  ++ (if truthy (summary self)
      then [("Last Run: ", get_prop (summary self) "lastRun")]
      else []).

End DashboardComponent.

(** ** Routes and navigation *)

Module AppRoutes.

Inductive Page := Dashboard | GenerateTest | TestList | Settings.

(** A route path: its segments, or the wildcard [**]. *)
Inductive RoutePath :=
| Segments (segs : list string)
| Wildcard.

Inductive RouteTarget :=
| Component (page : Page)
| RedirectTo (segs : list string).

Record Route : Type := { path : RoutePath; target : RouteTarget }.

(** [export const routes: Routes = [...]] *)
Definition routes : list Route :=
  [ {| path := Segments [];           target := Component Dashboard |};
    {| path := Segments ["generate"]; target := Component GenerateTest |};
    {| path := Segments ["tests"];    target := Component TestList |};
    {| path := Segments ["settings"]; target := Component Settings |};
    {| path := Wildcard;              target := RedirectTo [] |} ].

Fixpoint segments_eqb (a b : list string) : bool :=
  match a, b with
  | [], [] => true
  | x :: a', y :: b' => String.eqb x y && segments_eqb a' b'
  | _, _ => false
  end.

(** A route without children matches a URL when its segments are the
    URL's segments, all of them; the wildcard matches any URL. *)
Definition matches (r : Route) (url : list string) : bool :=
  match path r with
  | Segments segs => segments_eqb segs url
  | Wildcard => true
  end.

(** The router takes the first route of the table that matches. *)
Fixpoint first_match (table : list Route) (url : list string) : option Route :=
  match table with
  | [] => None
  | r :: rest => if matches r url then Some r else first_match rest url
  end.

(** Navigation to [url]: the page shown and the URL the router settles
    on, following at most [redirects] redirects. *)
Fixpoint navigate (redirects : nat) (table : list Route) (url : list string)
  : option (Page * list string) :=
  match first_match table url with
  | None => None
  | Some r =>
      match target r with
      | Component page => Some (page, url)
      | RedirectTo url' =>
          match redirects with
          | O => None
          | S n => navigate n table url'
          end
      end
  end.

Definition resolve (url : list string) : option (Page * list string) :=
  navigate (List.length routes) routes url.

(** The [routerLink]s of the sidebar's template, with their labels:
    [/], [/generate], [/tests], [/settings]. *)
Definition sidebar_links : list (string * list string) :=
  [ ("Dashboard", []);
    ("Generate Test", ["generate"]);
    ("Tests", ["tests"]);
    ("Settings", ["settings"]) ].

End AppRoutes.

(** ** Reading event traces *)

Module Trace.

(** The form submissions of a trace of the generate page. *)
Definition is_submit (ev : GenerateTestComponent.Event) : bool :=
  match ev with
  | GenerateTestComponent.Submit => true
  | _ => false
  end.

Definition is_input (ev : GenerateTestComponent.Event) : bool :=
  match ev with
  | GenerateTestComponent.Input _ => true
  | _ => false
  end.

(** The response bodies a trace of the generate page delivers. *)
Fixpoint bodies (evs : list GenerateTestComponent.Event) : list JsValue :=
  match evs with
  | [] => []
  | GenerateTestComponent.Resolve _ (NextN v) :: rest => v :: bodies rest
  | _ :: rest => bodies rest
  end.

(** The event is an answer, of either kind, to subscription [id] of the
    generate page. *)
Definition resolves (id : nat) (ev : GenerateTestComponent.Event) : bool :=
  match ev with
  | GenerateTestComponent.Resolve i _ => Nat.eqb i id
  | _ => false
  end.

Definition is_list_init (ev : TestListComponent.Event) : bool :=
  match ev with
  | TestListComponent.Init => true
  | _ => false
  end.

End Trace.

(** * Properties *)

(** ** URL construction *)

Module ApiServiceFacts.

Import JsString ApiService.

Lemma slash_eqb_true (c : ascii) : Ascii.eqb c slash = true -> c = slash.
Proof. apply Ascii.eqb_eq. Qed.

Lemma trim_trailing_no_slash (s : string) :
  endsWith_slash s = false -> trim_trailing_slashes s = s.
Proof.
  induction s as [|c rest IH]; [reflexivity|].
  destruct rest as [|d rest'].
  - simpl. intros ->. reflexivity.
  - intros H. change (endsWith_slash (String d rest') = false) in H.
    change (trim_trailing_slashes (String c (String d rest')))
      with (match trim_trailing_slashes (String d rest') with
            | EmptyString =>
                if Ascii.eqb c slash then EmptyString else String c EmptyString
            | r => String c r
            end).
    rewrite (IH H). reflexivity.
Qed.

Lemma trim_trailing_replace (s : string) :
  trim_trailing_slashes (replace_trailing_slash s) = trim_trailing_slashes s.
Proof.
  induction s as [|c rest IH]; [reflexivity|].
  destruct rest as [|d rest'].
  - simpl. destruct (Ascii.eqb c slash) eqn:E; simpl; [reflexivity|].
    rewrite E. reflexivity.
  - change (replace_trailing_slash (String c (String d rest')))
      with (String c (replace_trailing_slash (String d rest'))).
    change (trim_trailing_slashes (String c (replace_trailing_slash (String d rest'))))
      with (match trim_trailing_slashes (replace_trailing_slash (String d rest')) with
            | EmptyString =>
                if Ascii.eqb c slash then EmptyString else String c EmptyString
            | r => String c r
            end).
    rewrite IH. reflexivity.
Qed.

(** A base with at most one trailing slash is fully normalised by the
    constructor. *)
Lemma base_normalised (apiBaseUrl : string) :
  endsWith_slash (replace_trailing_slash apiBaseUrl) = false ->
  base (new apiBaseUrl) = trim_trailing_slashes apiBaseUrl.
Proof.
  intros H. simpl.
  rewrite <- trim_trailing_replace.
  symmetry. apply trim_trailing_no_slash, H.
Qed.

Lemma trim_leading_no_slash (s : string) :
  startsWith_slash s = false -> trim_leading_slashes s = s.
Proof.
  destruct s as [|c rest]; [reflexivity|].
  simpl. intros ->. reflexivity.
Qed.

(** What the adapter appends to the base, for any path: a slash and
    the path less one leading slash. *)
Lemma path_part (path : string) :
  (if startsWith_slash path then path else "/" ++ path)
  = "/" ++ drop_leading_slash path.
Proof.
  destruct path as [|c rest]; [reflexivity|].
  simpl. destruct (Ascii.eqb c slash) eqn:E; [|reflexivity].
  apply slash_eqb_true in E. subst c. reflexivity.
Qed.

Lemma path_normalised (path : string) :
  startsWith_slash (drop_leading_slash path) = false ->
  (if startsWith_slash path then path else "/" ++ path)
  = "/" ++ trim_leading_slashes path.
Proof.
  intros H. rewrite path_part. f_equal.
  destruct path as [|c rest]; [reflexivity|].
  unfold drop_leading_slash in *. simpl.
  destruct (Ascii.eqb c slash) eqn:E.
  - symmetry. apply trim_leading_no_slash, H.
  - reflexivity.
Qed.

End ApiServiceFacts.

(** C1, as stated, fails: a path with two leading slashes keeps both, so
    the URL has two slashes at the joint where the reference join has
    one.  (The same happens for a base with two trailing slashes.) *)
Lemma build_url_double_slash_counterexample :
  url (ApiService.get (ApiService.new "http://localhost:8000/api") "//tests" None)
    = "http://localhost:8000/api//tests"
  /\ ApiService.one_slash_join "http://localhost:8000/api" "//tests"
    = "http://localhost:8000/api/tests"
  /\ url (ApiService.post (ApiService.new "http://localhost:8000/api//") "tests" JNull None)
    = "http://localhost:8000/api//tests"
  /\ ~ (forall apiBaseUrl path,
          url (ApiService.get (ApiService.new apiBaseUrl) path None)
          = ApiService.one_slash_join apiBaseUrl path).
Proof.
  repeat split; try reflexivity.
  intros H. specialize (H "http://localhost:8000/api" "//tests").
  vm_compute in H. discriminate H.
Qed.

(** C1 (amended): for every path with at most one leading slash and
    every configured base URL with at most one trailing slash, each of
    get, post, put and delete builds the URL as the base without its
    trailing slash, one slash, and the path without its leading slash. *)
Theorem build_url_one_slash :
  forall (apiBaseUrl path : string) (b : JsValue) (h p : option JsValue),
    JsString.endsWith_slash (JsString.replace_trailing_slash apiBaseUrl) = false ->
    JsString.startsWith_slash (JsString.drop_leading_slash path) = false ->
    let self := ApiService.new apiBaseUrl in
    url (ApiService.get self path p) = ApiService.one_slash_join apiBaseUrl path
    /\ url (ApiService.post self path b h) = ApiService.one_slash_join apiBaseUrl path
    /\ url (ApiService.put self path b) = ApiService.one_slash_join apiBaseUrl path
    /\ url (ApiService.delete self path) = ApiService.one_slash_join apiBaseUrl path.
Proof.
  intros apiBaseUrl path b h p Hb Hp self.
  assert (E : ApiService.build_url self path
              = ApiService.one_slash_join apiBaseUrl path).
  { unfold ApiService.build_url, ApiService.one_slash_join, self.
    rewrite (ApiServiceFacts.base_normalised _ Hb).
    rewrite (ApiServiceFacts.path_normalised _ Hp).
    reflexivity. }
  repeat split; exact E.
Qed.

Lemma build_url_one_slash_witness :
  JsString.endsWith_slash
    (JsString.replace_trailing_slash "http://localhost:8000/api/") = false
  /\ JsString.startsWith_slash (JsString.drop_leading_slash "/tests/generate") = false
  /\ url (ApiService.post (ApiService.new "http://localhost:8000/api/")
                          "/tests/generate" JNull None)
     = "http://localhost:8000/api/tests/generate".
Proof.
  split; [reflexivity|]. split; [reflexivity|].
  exact (proj1 (proj2 (build_url_one_slash "http://localhost:8000/api/"
                         "/tests/generate" JNull None None eq_refl eq_refl))).
Defined.

(** ** The event loop *)

Section RuntimeFacts.

Variable C : Type.
Implicit Types (rt : Runtime C) (obs : Observer C).

Lemma comp_subscribe o obs rt : comp (subscribe o obs rt) = comp rt.
Proof. reflexivity. Qed.

Lemma wire_subscribe o obs rt : wire (subscribe o obs rt) = (wire rt ++ [o])%list.
Proof. reflexivity. Qed.

Lemma fresh_subscribe o obs rt : fresh (subscribe o obs rt) = S (fresh rt).
Proof. reflexivity. Qed.

Lemma wire_deliver id n rt : wire (deliver id n rt) = wire rt.
Proof.
  unfold deliver. destruct (find_sub id (inflight rt)) as [obs|]; [|reflexivity].
  destruct n; [reflexivity|]. destruct (on_error obs); reflexivity.
Qed.

Lemma find_sub_subscribed o obs rt :
  find_sub (fresh rt) (inflight (subscribe o obs rt)) = Some obs.
Proof. simpl. rewrite Nat.eqb_refl. reflexivity. Qed.

(** The answer to the subscription just made reaches its observer. *)
Lemma deliver_next_subscribed o obs rt v :
  comp (deliver (fresh rt) (NextN v) (subscribe o obs rt))
  = on_next obs v (comp rt).
Proof. unfold deliver. rewrite find_sub_subscribed. reflexivity. Qed.

Lemma no_error_callbacks_start (c : C) : no_error_callbacks (start c).
Proof. constructor. Qed.

Lemma no_error_callbacks_subscribe o obs rt :
  on_error obs = None ->
  no_error_callbacks rt -> no_error_callbacks (subscribe o obs rt).
Proof. intros Ho Hrt. constructor; assumption. Qed.

Lemma Forall_drop_sub (P : nat * Observer C -> Prop) id subs :
  Forall P subs -> Forall P (drop_sub id subs).
Proof.
  intros H. unfold drop_sub. apply Forall_forall. intros x Hx.
  apply filter_In in Hx. destruct Hx as [Hx _].
  revert x Hx. apply Forall_forall, H.
Qed.

Lemma no_error_callbacks_deliver id n rt :
  no_error_callbacks rt -> no_error_callbacks (deliver id n rt).
Proof.
  intros H. unfold deliver.
  destruct (find_sub id (inflight rt)) as [obs|]; [|exact H].
  destruct n; [apply Forall_drop_sub, H|].
  destruct (on_error obs); apply Forall_drop_sub, H.
Qed.

Lemma find_sub_Forall (P : nat * Observer C -> Prop) id subs obs :
  Forall P subs -> find_sub id subs = Some obs -> P (id, obs).
Proof.
  induction 1 as [|[i o] rest Hx _ IH]; simpl; [discriminate|].
  destruct (Nat.eqb id i) eqn:E.
  - intros [= <-]. apply Nat.eqb_eq in E. subst i. exact Hx.
  - exact IH.
Qed.

(** With no [error] callback in flight, an error changes nothing in
    the component. *)
Lemma comp_deliver_error id e rt :
  no_error_callbacks rt -> comp (deliver id (ErrorN e) rt) = comp rt.
Proof.
  intros H. unfold deliver.
  destruct (find_sub id (inflight rt)) as [obs|] eqn:F; [|reflexivity].
  pose proof (find_sub_Forall _ H F) as Ho. simpl in Ho.
  rewrite Ho. reflexivity.
Qed.

Lemma comp_deliver_next id v rt obs :
  find_sub id (inflight rt) = Some obs ->
  comp (deliver id (NextN v) rt) = on_next obs v (comp rt).
Proof. intros F. unfold deliver. rewrite F. reflexivity. Qed.

Lemma find_sub_drop_other id id' (subs : list (nat * Observer C)) :
  id <> id' -> find_sub id (drop_sub id' subs) = find_sub id subs.
Proof.
  intros Hne. induction subs as [|[i o] rest IH]; [reflexivity|].
  unfold drop_sub in *. simpl.
  destruct (Nat.eqb id' i) eqn:E'; simpl.
  - apply Nat.eqb_eq in E'. subst i.
    rewrite (proj2 (Nat.eqb_neq id id') Hne). exact IH.
  - rewrite IH. reflexivity.
Qed.

(** An answer to one subscription leaves the others in flight. *)
Lemma find_sub_deliver_other id id' n rt :
  id <> id' ->
  find_sub id (inflight (deliver id' n rt)) = find_sub id (inflight rt).
Proof.
  intros Hne. unfold deliver.
  destruct (find_sub id' (inflight rt)) as [obs|]; [|reflexivity].
  destruct n; [apply find_sub_drop_other, Hne|].
  destruct (on_error obs); apply find_sub_drop_other, Hne.
Qed.

(** A subscription made earlier is still found after a later one. *)
Lemma find_sub_older o obs rt id :
  id <> fresh rt ->
  find_sub id (inflight (subscribe o obs rt)) = find_sub id (inflight rt).
Proof.
  intros Hne. simpl. rewrite (proj2 (Nat.eqb_neq _ _) Hne). reflexivity.
Qed.

End RuntimeFacts.

(** ** The interceptor *)

(** C7: the interceptor is a pass-through.  Whatever handler comes next
    receives the very request the interceptor was given; with the
    backend as next handler, the request that goes on the wire is that
    request, with the same method, URL, headers and body. *)
Theorem intercept_pass_through :
  forall (req : HttpRequest),
    (forall (W : Type) (next : HttpHandler W) (w : W),
        AuthInterceptor.intercept req next w = handle next req w)
    /\ (forall (C : Type) (rt : Runtime C),
          let rt' := AuthInterceptor.intercept req backend rt in
          wire rt' = (wire rt ++ [req])%list
          /\ comp rt' = comp rt
          /\ forall sent, last (wire rt') sent = req).
Proof.
  intros req. split.
  - reflexivity.
  - intros C rt. simpl. repeat split.
    intros sent. apply last_last.
Qed.

(** ** The generate request *)

(** C2: subscribing to [generate gen screenId options] (for every
    [screenId], the non-empty ones included) puts exactly one request on
    the wire, a POST to [/tests/generate] under the base whose body is
    [{ screenId, options }] (with [{}] for omitted options); no
    notification makes it send another; and
    the response body reaches the subscriber as it arrived. *)
Theorem generate_issues_one_post :
  forall (gen : TestGeneratorService.t) (screenId : string)
         (options : option (list (string * JsValue)))
         (C : Type) (obs : Observer C) (rt : Runtime C),
    let options_sent :=
      match options with
      | Some o => o
      | None => []
      end in
    let request :=
      mkRequest POST
                (ApiService.base (TestGeneratorService.api gen) ++ "/tests/generate")
                (Some (JObj [("screenId", JStr screenId); ("options", JObj options_sent)]))
                None None in
    let rt' := subscribe (TestGeneratorService.generate gen screenId options) obs rt in
    wire rt' = (wire rt ++ [request])%list
    /\ (forall n, wire (deliver (fresh rt) n rt') = wire rt')
    /\ (forall res,
          comp (deliver (fresh rt) (NextN res) rt') = on_next obs res (comp rt)).
Proof.
  intros gen screenId options C obs rt options_sent request rt'.
  split; [reflexivity|]. split.
  - intros n. apply wire_deliver.
  - intros res. apply deliver_next_subscribed.
Qed.

(** C8, as stated, fails: with [options] omitted the body carries the
    empty object, which has neither [depth] nor [includeEdgeCases]. *)
Lemma generate_default_options_counterexample :
  let gen := {| TestGeneratorService.api := ApiService.new "http://localhost:8000/api" |} in
  exists b,
    body (TestGeneratorService.generate gen "screen_123" None) = Some b
    /\ get_prop b "options" = JObj []
    /\ has_prop (get_prop b "options") "depth" = false
    /\ has_prop (get_prop b "options") "includeEdgeCases" = false.
Proof.
  eexists. repeat split.
Qed.

(** C8 (amended): when a generate submission omits [options], the
    default of the parameter is the empty object, and the POST body that
    goes on the wire is [{ screenId, options: {} }]. *)
Theorem generate_default_options :
  forall (gen : TestGeneratorService.t) (screenId : string)
         (C : Type) (obs : Observer C) (rt : Runtime C),
    let sent := TestGeneratorService.generate gen screenId None in
    method sent = POST
    /\ body sent = Some (JObj [("screenId", JStr screenId); ("options", JObj [])])
    /\ wire (subscribe sent obs rt) = (wire rt ++ [sent])%list.
Proof.
  intros. repeat split.
Qed.

(** ** The generate page *)

Module GenerateFacts.

Import GenerateTestComponent.

Section WithServices.

Variable gen : TestGeneratorService.t.

Lemma form_valid_screenId (c : t) :
  form_valid c = true ->
  exists s, form_screenId c = Some s /\ s <> "".
Proof.
  unfold form_valid. destruct (form_screenId c) as [s|]; [|discriminate].
  intros H. exists s. split; [reflexivity|].
  intros ->. discriminate H.
Qed.

(** With a valid form, [submit] is one subscription to [generate]. *)
Lemma submit_valid (rt : Runtime t) :
  form_valid (comp rt) = true ->
  exists s,
    form_screenId (comp rt) = Some s
    /\ submit gen rt
       = subscribe (TestGeneratorService.generate gen s None)
                   {| on_next := set_result; on_error := None |} rt.
Proof.
  intros H. destruct (form_valid_screenId _ H) as [s [Hs _]].
  exists s. split; [exact Hs|].
  unfold submit. rewrite H, Hs. reflexivity.
Qed.

Lemma comp_submit (rt : Runtime t) : comp (submit gen rt) = comp rt.
Proof.
  unfold submit. destruct (form_valid (comp rt)); [|reflexivity].
  destruct (form_screenId (comp rt)); reflexivity.
Qed.

Lemma fresh_submit_valid (rt : Runtime t) :
  form_valid (comp rt) = true -> fresh (submit gen rt) = S (fresh rt).
Proof.
  intros H. destruct (submit_valid _ H) as [s [_ ->]]. reflexivity.
Qed.

(** The response body to a submission becomes [result], whole. *)
Lemma result_after_response (rt : Runtime t) (res : JsValue) :
  form_valid (comp rt) = true ->
  result (comp (deliver (fresh rt) (NextN res) (submit gen rt))) = res.
Proof.
  intros H. destruct (submit_valid _ H) as [s [_ ->]].
  rewrite deliver_next_subscribed. reflexivity.
Qed.

Lemma generate_no_error_callbacks_submit (rt : Runtime t) :
  no_error_callbacks rt -> no_error_callbacks (submit gen rt).
Proof.
  intros H. unfold submit. destruct (form_valid (comp rt)); [|exact H].
  destruct (form_screenId (comp rt)); [|exact H].
  apply no_error_callbacks_subscribe; [reflexivity|exact H].
Qed.

Lemma generate_no_error_callbacks_step (rt : Runtime t) (ev : Event) :
  no_error_callbacks rt -> no_error_callbacks (step gen rt ev).
Proof.
  intros H. destruct ev as [s| |id n]; simpl.
  - exact H.
  - apply generate_no_error_callbacks_submit, H.
  - apply no_error_callbacks_deliver, H.
Qed.

Lemma generate_no_error_callbacks_run (evs : list Event) (rt : Runtime t) :
  no_error_callbacks rt -> no_error_callbacks (run gen evs rt).
Proof.
  revert rt. induction evs as [|ev evs IH]; intros rt H; [exact H|].
  simpl. apply IH, generate_no_error_callbacks_step, H.
Qed.

End WithServices.

End GenerateFacts.

(** C9: a [submit] while the form is invalid (the screen id is empty, or
    null) sends nothing and leaves the component, and the whole runtime,
    as it was. *)
Theorem submit_invalid_form_no_effect :
  forall (gen : TestGeneratorService.t) (rt : Runtime GenerateTestComponent.t),
    GenerateTestComponent.form_valid (comp rt) = false ->
    let rt' := GenerateTestComponent.submit gen rt in
    wire rt' = wire rt
    /\ GenerateTestComponent.result (comp rt') = GenerateTestComponent.result (comp rt)
    /\ rt' = rt.
Proof.
  intros gen rt H rt'. unfold rt', GenerateTestComponent.submit.
  rewrite H. repeat split.
Qed.

Lemma submit_invalid_form_no_effect_witness :
  GenerateTestComponent.form_valid (comp (start GenerateTestComponent.new)) = false
  /\ wire (GenerateTestComponent.submit Scenario.gen (start GenerateTestComponent.new)) = []
  /\ GenerateTestComponent.submit Scenario.gen (start GenerateTestComponent.new)
     = start GenerateTestComponent.new.
Proof.
  split; [reflexivity|].
  pose proof (submit_invalid_form_no_effect Scenario.gen
                (start GenerateTestComponent.new) eq_refl) as H.
  split; [exact (proj1 H) | exact (proj2 (proj2 H))].
Defined.

Module GenerateOverlapFacts.

Import GenerateTestComponent.

Lemma fresh_deliver (C : Type) (id : nat) (n : Notification) (rt : Runtime C) :
  fresh (deliver id n rt) = fresh rt.
Proof.
  unfold deliver. destruct (find_sub id (inflight rt)) as [obs|]; [|reflexivity].
  destruct n; [reflexivity|]. destruct (on_error obs); reflexivity.
Qed.

Section WithServices.

Variable gen : TestGeneratorService.t.

(** A subscription stays in flight, with its observer, through every
    event other than its own answer; identifiers already handed out stay
    below the next one. *)
Lemma waiting_step (rt : Runtime t) (ev : Event) (id : nat) (obs : Observer t) :
  id < fresh rt ->
  Trace.resolves id ev = false ->
  find_sub id (inflight rt) = Some obs ->
  find_sub id (inflight (step gen rt ev)) = Some obs /\ id < fresh (step gen rt ev).
Proof.
  intros L Hev F. destruct ev as [s| |i n]; simpl.
  - split; assumption.
  - unfold submit. destruct (form_valid (comp rt)); [|split; assumption].
    destruct (form_screenId (comp rt)); [|split; assumption].
    split.
    + rewrite find_sub_older by lia. exact F.
    + simpl. lia.
  - simpl in Hev. apply Nat.eqb_neq in Hev. split.
    + rewrite find_sub_deliver_other by (intros ->; apply Hev; reflexivity). exact F.
    + rewrite fresh_deliver. exact L.
Qed.

Lemma waiting_run (evs : list Event) (rt : Runtime t) (id : nat) (obs : Observer t) :
  id < fresh rt ->
  Forall (fun ev => Trace.resolves id ev = false) evs ->
  find_sub id (inflight rt) = Some obs ->
  find_sub id (inflight (run gen evs rt)) = Some obs /\ id < fresh (run gen evs rt).
Proof.
  revert rt. induction evs as [|ev evs IH]; intros rt L H F; [split; assumption|].
  inversion H as [|? ? Hev Hrest]; subst. simpl.
  destruct (waiting_step rt ev L Hev F) as [F' L'].
  apply IH; assumption.
Qed.

End WithServices.

End GenerateOverlapFacts.

(** C3, as stated, fails: two submissions are in flight, the second is
    answered first and the first afterwards; the component ends up
    holding the answer to the first submission, not the second. *)
Lemma overlapping_submits_counterexample :
  let evs := [GenerateTestComponent.Input "screen_123";
              GenerateTestComponent.Submit;
              GenerateTestComponent.Submit;
              GenerateTestComponent.Resolve 1 (NextN Scenario.passed_response);
              GenerateTestComponent.Resolve 0 (NextN Scenario.queued_response)] in
  let final := GenerateTestComponent.run Scenario.gen evs (start GenerateTestComponent.new) in
  List.length (wire final) = 2
  /\ GenerateTestComponent.result (comp final) = Scenario.queued_response
  /\ GenerateTestComponent.result (comp final) <> Scenario.passed_response.
Proof.
  repeat split. vm_compute. discriminate.
Qed.

(** C3 (amended): for any two overlapping generate submissions from the
    same component where the second-issued call resolves before the
    first, whatever is typed, submitted or answered for other requests
    in between, responses are applied in the order they arrive and none
    is discarded: the second call's response is held when it arrives,
    and the final state holds the first call's response, which arrived
    last and replaced it. *)
Theorem overlapping_submits_last_arrival_wins :
  forall (gen : TestGeneratorService.t) (rt : Runtime GenerateTestComponent.t)
         (first second : JsValue)
         (between_submits before_second before_first : list GenerateTestComponent.Event),
    GenerateTestComponent.form_valid (comp rt) = true ->
    Forall (fun ev => Trace.resolves (fresh rt) ev = false) between_submits ->
    GenerateTestComponent.form_valid
      (comp (GenerateTestComponent.run gen between_submits
               (GenerateTestComponent.submit gen rt))) = true ->
    Forall (fun ev =>
              Trace.resolves (fresh rt) ev = false
              /\ Trace.resolves
                   (fresh (GenerateTestComponent.run gen between_submits
                             (GenerateTestComponent.submit gen rt))) ev = false)
           before_second ->
    Forall (fun ev => Trace.resolves (fresh rt) ev = false) before_first ->
    let id1 := fresh rt in
    let rt1 := GenerateTestComponent.run gen between_submits
                 (GenerateTestComponent.submit gen rt) in
    let id2 := fresh rt1 in
    let rt2 := GenerateTestComponent.run gen before_second
                 (GenerateTestComponent.submit gen rt1) in
    let after_second := deliver id2 (NextN second) rt2 in
    let rt3 := GenerateTestComponent.run gen before_first after_second in
    let after_first := deliver id1 (NextN first) rt3 in
    GenerateTestComponent.result (comp after_second) = second
    /\ GenerateTestComponent.result (comp after_first) = first.
Proof.
  intros gen rt first second evsA evsB evsC H HA H1 HB HC
         id1 rt1 id2 rt2 after_second rt3 after_first.
  set (obs := {| on_next := GenerateTestComponent.set_result; on_error := None |}).
  (* the first submission, still waiting after [between_submits] *)
  destruct (GenerateFacts.submit_valid gen _ H) as [s [_ E]].
  assert (K1 : find_sub id1 (inflight rt1) = Some obs /\ id1 < fresh rt1).
  { unfold rt1. apply GenerateOverlapFacts.waiting_run; [|exact HA|].
    - rewrite E. simpl. unfold id1. lia.
    - rewrite E. apply find_sub_subscribed. }
  destruct K1 as [F1 L1]. fold id2 in L1.
  (* the second submission *)
  destruct (GenerateFacts.submit_valid gen _ H1) as [s1 [_ E1]]. fold rt1 in E1.
  assert (K2 : find_sub id2 (inflight rt2) = Some obs /\ id2 < fresh rt2).
  { unfold rt2. apply GenerateOverlapFacts.waiting_run.
    - rewrite E1. simpl. unfold id2. lia.
    - revert HB. apply Forall_impl. intros ev [_ Hev]. exact Hev.
    - rewrite E1. apply find_sub_subscribed. }
  assert (K1' : find_sub id1 (inflight rt2) = Some obs /\ id1 < fresh rt2).
  { unfold rt2. apply GenerateOverlapFacts.waiting_run.
    - rewrite E1. simpl. lia.
    - revert HB. apply Forall_impl. intros ev [Hev _]. exact Hev.
    - rewrite E1. rewrite find_sub_older by lia. exact F1. }
  destruct K2 as [F2 L2]. destruct K1' as [F1' L1'].
  split.
  - unfold after_second. rewrite (comp_deliver_next _ second _ F2). reflexivity.
  - assert (K3 : find_sub id1 (inflight rt3) = Some obs /\ id1 < fresh rt3).
    { unfold rt3. apply GenerateOverlapFacts.waiting_run; [|exact HC|].
      - unfold after_second. rewrite GenerateOverlapFacts.fresh_deliver. exact L1'.
      - unfold after_second. rewrite find_sub_deliver_other by lia. exact F1'. }
    destruct K3 as [F3 _].
    unfold after_first. rewrite (comp_deliver_next _ first _ F3). reflexivity.
Qed.

Lemma overlapping_submits_last_arrival_wins_witness :
  let rt := GenerateTestComponent.run Scenario.gen
              [GenerateTestComponent.Input "screen_123"]
              (start GenerateTestComponent.new) in
  let between_submits := [GenerateTestComponent.Input "screen_456"] in
  let before_second := [GenerateTestComponent.Input "screen_789"] in
  let before_first := [GenerateTestComponent.Input ""; GenerateTestComponent.Submit] in
  GenerateTestComponent.form_valid (comp rt) = true
  /\ Forall (fun ev => Trace.resolves 0 ev = false) between_submits
  /\ GenerateTestComponent.form_valid
       (comp (GenerateTestComponent.run Scenario.gen between_submits
                (GenerateTestComponent.submit Scenario.gen rt))) = true
  /\ Forall (fun ev => Trace.resolves 0 ev = false /\ Trace.resolves 1 ev = false)
            before_second
  /\ Forall (fun ev => Trace.resolves 0 ev = false) before_first
  /\ GenerateTestComponent.result
       (comp (deliver 0 (NextN Scenario.queued_response)
                (GenerateTestComponent.run Scenario.gen before_first
                   (deliver 1 (NextN Scenario.passed_response)
                      (GenerateTestComponent.run Scenario.gen before_second
                         (GenerateTestComponent.submit Scenario.gen
                            (GenerateTestComponent.run Scenario.gen between_submits
                               (GenerateTestComponent.submit Scenario.gen rt))))))))
     = Scenario.queued_response.
Proof.
  assert (HA : Forall (fun ev => Trace.resolves 0 ev = false)
                 [GenerateTestComponent.Input "screen_456"]).
  { repeat constructor. }
  assert (HB : Forall (fun ev => Trace.resolves 0 ev = false
                                 /\ Trace.resolves 1 ev = false)
                 [GenerateTestComponent.Input "screen_789"]).
  { repeat constructor. }
  assert (HC : Forall (fun ev => Trace.resolves 0 ev = false)
                 [GenerateTestComponent.Input ""; GenerateTestComponent.Submit]).
  { repeat constructor. }
  split; [reflexivity|]. split; [exact HA|]. split; [reflexivity|].
  split; [exact HB|]. split; [exact HC|].
  exact (proj2 (overlapping_submits_last_arrival_wins Scenario.gen
                  (GenerateTestComponent.run Scenario.gen
                     [GenerateTestComponent.Input "screen_123"]
                     (start GenerateTestComponent.new))
                  Scenario.queued_response Scenario.passed_response
                  eq_refl HA eq_refl HB HC)).
Defined.

(** ** What the generate page holds after an answer *)

Lemma get_prop_absent (v : JsValue) (k : string) :
  has_prop v k = false -> get_prop v k = JUndefined.
Proof.
  destruct v; try reflexivity. simpl.
  destruct (lookup_field k fields); [discriminate|reflexivity].
Qed.

Lemma has_prop_truthy (v : JsValue) (k : string) :
  has_prop v k = true -> truthy v = true.
Proof. destruct v; simpl; try discriminate. reflexivity. Qed.

(** C4, as stated, fails: the answer of a queued job without [tests] is
    stored as it is, so [result.tests] reads [undefined], not []. *)
Lemma missing_tests_counterexample :
  let evs := [GenerateTestComponent.Input "screen_123";
              GenerateTestComponent.Submit;
              GenerateTestComponent.Resolve 0 (NextN Scenario.response_without_tests)] in
  let final := GenerateTestComponent.run Scenario.gen evs (start GenerateTestComponent.new) in
  has_prop Scenario.response_without_tests "tests" = false
  /\ get_prop (GenerateTestComponent.result (comp final)) "tests" = JUndefined
  /\ get_prop (GenerateTestComponent.result (comp final)) "tests" <> JArr [].
Proof.
  repeat split. vm_compute. discriminate.
Qed.

(** C4 (amended): for every generate response in which the [tests]
    field is absent, the value exposed to the UI is the response as it
    arrived, with no projection step: its [tests] is absent too and
    reads [undefined]. *)
Theorem missing_tests_stay_missing :
  forall (gen : TestGeneratorService.t) (rt : Runtime GenerateTestComponent.t)
         (res : JsValue),
    GenerateTestComponent.form_valid (comp rt) = true ->
    has_prop res "tests" = false ->
    let rt' := deliver (fresh rt) (NextN res) (GenerateTestComponent.submit gen rt) in
    GenerateTestComponent.result (comp rt') = res
    /\ has_prop (GenerateTestComponent.result (comp rt')) "tests" = false
    /\ get_prop (GenerateTestComponent.result (comp rt')) "tests" = JUndefined.
Proof.
  intros gen rt res Hv Habs rt'.
  assert (E : GenerateTestComponent.result (comp rt') = res).
  { apply GenerateFacts.result_after_response, Hv. }
  rewrite E. split; [reflexivity|]. split; [exact Habs|].
  apply get_prop_absent, Habs.
Qed.

Lemma missing_tests_stay_missing_witness :
  let rt := GenerateTestComponent.run Scenario.gen
              [GenerateTestComponent.Input "screen_123"]
              (start GenerateTestComponent.new) in
  GenerateTestComponent.form_valid (comp rt) = true
  /\ has_prop Scenario.response_without_tests "tests" = false
  /\ GenerateTestComponent.result
       (comp (deliver 0 (NextN Scenario.response_without_tests)
                (GenerateTestComponent.submit Scenario.gen rt)))
     = Scenario.response_without_tests.
Proof.
  split; [reflexivity|]. split; [reflexivity|].
  exact (proj1 (missing_tests_stay_missing Scenario.gen
                  (GenerateTestComponent.run Scenario.gen
                     [GenerateTestComponent.Input "screen_123"]
                     (start GenerateTestComponent.new))
                  Scenario.response_without_tests eq_refl eq_refl)).
Defined.

(** C5, as stated, fails: an envelope with both [data] and a non-null
    [error] is stored and displayed whole, so [data] is exposed to the
    UI next to the error. *)
Lemma envelope_error_counterexample :
  let evs := [GenerateTestComponent.Input "screen_123";
              GenerateTestComponent.Submit;
              GenerateTestComponent.Resolve 0 (NextN Scenario.envelope_with_error)] in
  let final := GenerateTestComponent.run Scenario.gen evs (start GenerateTestComponent.new) in
  get_prop Scenario.envelope_with_error "error" = Scenario.rate_limit
  /\ GenerateTestComponent.view (comp final) = Some Scenario.envelope_with_error
  /\ has_prop (GenerateTestComponent.result (comp final)) "data" = true
  /\ get_prop (GenerateTestComponent.result (comp final)) "data" = Scenario.queued_response.
Proof.
  repeat split.
Qed.

(** C5 (amended): for every response envelope containing both a [data]
    field and a non-null [error] field, the component holds and displays
    the envelope as it arrived: the error is exposed to the UI, and so
    is the data. *)
Theorem envelope_shown_whole :
  forall (gen : TestGeneratorService.t) (rt : Runtime GenerateTestComponent.t)
         (envelope : JsValue),
    GenerateTestComponent.form_valid (comp rt) = true ->
    has_prop envelope "data" = true ->
    has_prop envelope "error" = true ->
    get_prop envelope "error" <> JNull ->
    let rt' := deliver (fresh rt) (NextN envelope)
                       (GenerateTestComponent.submit gen rt) in
    let shown := GenerateTestComponent.result (comp rt') in
    GenerateTestComponent.view (comp rt') = Some envelope
    /\ get_prop shown "error" = get_prop envelope "error"
    /\ has_prop shown "data" = true
    /\ get_prop shown "data" = get_prop envelope "data".
Proof.
  intros gen rt envelope Hv Hd He Hnn rt' shown.
  assert (E : shown = envelope).
  { apply GenerateFacts.result_after_response, Hv. }
  unfold GenerateTestComponent.view. fold shown. rewrite E.
  rewrite (has_prop_truthy _ _ Hd). repeat split. exact Hd.
Qed.

Lemma envelope_shown_whole_witness :
  let rt := GenerateTestComponent.run Scenario.gen
              [GenerateTestComponent.Input "screen_123"]
              (start GenerateTestComponent.new) in
  GenerateTestComponent.form_valid (comp rt) = true
  /\ has_prop Scenario.envelope_with_error "data" = true
  /\ has_prop Scenario.envelope_with_error "error" = true
  /\ get_prop Scenario.envelope_with_error "error" <> JNull
  /\ GenerateTestComponent.view
       (comp (deliver 0 (NextN Scenario.envelope_with_error)
                (GenerateTestComponent.submit Scenario.gen rt)))
     = Some Scenario.envelope_with_error.
Proof.
  assert (Hnn : get_prop Scenario.envelope_with_error "error" <> JNull)
    by (vm_compute; discriminate).
  split; [reflexivity|]. split; [reflexivity|]. split; [reflexivity|].
  split; [exact Hnn|].
  exact (proj1 (envelope_shown_whole Scenario.gen
                  (GenerateTestComponent.run Scenario.gen
                     [GenerateTestComponent.Input "screen_123"]
                     (start GenerateTestComponent.new))
                  Scenario.envelope_with_error eq_refl eq_refl eq_refl Hnn)).
Defined.

(** ** The test list page *)

Module TestListFacts.

Import TestListComponent.

Section WithServices.

Variable api : ApiService.t.

Lemma list_no_error_callbacks_step (rt : Runtime t) (ev : Event) :
  no_error_callbacks rt -> no_error_callbacks (step api rt ev).
Proof.
  intros H. destruct ev as [|id n]; simpl.
  - apply no_error_callbacks_subscribe; [reflexivity|exact H].
  - apply no_error_callbacks_deliver, H.
Qed.

Lemma list_no_error_callbacks_run (evs : list Event) (rt : Runtime t) :
  no_error_callbacks rt -> no_error_callbacks (run api evs rt).
Proof.
  revert rt. induction evs as [|ev evs IH]; intros rt H; [exact H|].
  simpl. apply IH, list_no_error_callbacks_step, H.
Qed.

(** A step that is not the arrival of a response body leaves the
    component alone. *)
Lemma comp_step_unresolved (rt : Runtime t) (ev : Event) :
  no_error_callbacks rt ->
  is_resolution ev = false ->
  comp (step api rt ev) = comp rt.
Proof.
  intros Hrt Hev. destruct ev as [|id [v|e]]; simpl.
  - reflexivity.
  - discriminate Hev.
  - apply comp_deliver_error, Hrt.
Qed.

Lemma comp_run_unresolved (evs : list Event) (rt : Runtime t) :
  no_error_callbacks rt ->
  Forall (fun ev => is_resolution ev = false) evs ->
  comp (run api evs rt) = comp rt.
Proof.
  revert rt. induction evs as [|ev evs IH]; intros rt Hrt Hevs; [reflexivity|].
  inversion Hevs as [|? ? Hev Hrest]; subst. simpl.
  rewrite IH.
  - apply comp_step_unresolved; assumption.
  - apply list_no_error_callbacks_step, Hrt.
  - exact Hrest.
Qed.

End WithServices.

End TestListFacts.

(** C10: the list page starts with [tests = []], and at every point
    before a response body for [/tests] arrives (after any sequence of
    [ngOnInit] calls and failed answers) it still holds the empty array,
    never [undefined], and the template renders zero entries. *)
Theorem tests_empty_before_resolution :
  forall (api : ApiService.t) (evs : list TestListComponent.Event),
    Forall (fun ev => TestListComponent.is_resolution ev = false) evs ->
    let c := comp (TestListComponent.run api evs (start TestListComponent.new)) in
    TestListComponent.tests TestListComponent.new = JArr []
    /\ TestListComponent.tests c = JArr []
    /\ TestListComponent.tests c <> JUndefined
    /\ TestListComponent.view c = Some [].
Proof.
  intros api evs Hevs c.
  assert (E : c = TestListComponent.new).
  { unfold c. rewrite TestListFacts.comp_run_unresolved.
    - reflexivity.
    - apply no_error_callbacks_start.
    - exact Hevs. }
  rewrite E. repeat split. discriminate.
Qed.

Lemma tests_empty_before_resolution_witness :
  let evs := [TestListComponent.Init;
              TestListComponent.Resolve 0 (ErrorN (http_error_response 500 Scenario.rate_limit))] in
  Forall (fun ev => TestListComponent.is_resolution ev = false) evs
  /\ TestListComponent.view
       (comp (TestListComponent.run Scenario.api evs (start TestListComponent.new)))
     = Some [].
Proof.
  assert (H : Forall (fun ev => TestListComponent.is_resolution ev = false)
                [TestListComponent.Init;
                 TestListComponent.Resolve 0
                   (ErrorN (http_error_response 500 Scenario.rate_limit))]).
  { repeat constructor. }
  split; [exact H|].
  exact (proj2 (proj2 (proj2 (tests_empty_before_resolution Scenario.api H)))).
Defined.

(** ** Failed calls *)

(** C6, as stated, fails: after a first answer is held, a second
    submission fails with HTTP 500 and [{code, message}]; the component
    still holds and shows the earlier snapshot, exposes neither the code
    nor the message, and the error ends up with no observer. *)
Lemma failed_call_counterexample :
  let err := http_error_response 500 Scenario.rate_limit in
  let evs := [GenerateTestComponent.Input "screen_123";
              GenerateTestComponent.Submit;
              GenerateTestComponent.Resolve 0 (NextN Scenario.queued_response);
              GenerateTestComponent.Submit;
              GenerateTestComponent.Resolve 1 (ErrorN err)] in
  let final := GenerateTestComponent.run Scenario.gen evs (start GenerateTestComponent.new) in
  GenerateTestComponent.view (comp final) = Some Scenario.queued_response
  /\ get_prop (GenerateTestComponent.result (comp final)) "code" <> JStr "RATE_LIMIT"
  /\ get_prop (GenerateTestComponent.result (comp final)) "message"
     <> JStr "too many requests"
  /\ unhandled final = [err].
Proof.
  repeat split; vm_compute; discriminate.
Qed.

(** C6 (amended): for every failed call, the coordinator that issued it
    (generate page or test list) has no errored state to move to: the
    subscriptions carry no error callback, so the component is left
    exactly as it was, still holding its previous snapshot. *)
Theorem failed_call_leaves_component :
  forall (gen : TestGeneratorService.t) (api : ApiService.t)
         (submitted : list GenerateTestComponent.Event)
         (listed : list TestListComponent.Event)
         (id : nat) (err : JsValue),
    (let rt := GenerateTestComponent.run gen submitted (start GenerateTestComponent.new) in
     let rt' := deliver id (ErrorN err) rt in
     comp rt' = comp rt
     /\ GenerateTestComponent.view (comp rt') = GenerateTestComponent.view (comp rt))
    /\ (let rt := TestListComponent.run api listed (start TestListComponent.new) in
        let rt' := deliver id (ErrorN err) rt in
        comp rt' = comp rt
        /\ TestListComponent.view (comp rt') = TestListComponent.view (comp rt)).
Proof.
  intros gen api submitted listed id err. split.
  - intros rt rt'.
    assert (E : comp rt' = comp rt).
    { apply comp_deliver_error, GenerateFacts.generate_no_error_callbacks_run,
        no_error_callbacks_start. }
    rewrite E. split; reflexivity.
  - intros rt rt'.
    assert (E : comp rt' = comp rt).
    { apply comp_deliver_error, TestListFacts.list_no_error_callbacks_run,
        no_error_callbacks_start. }
    rewrite E. split; reflexivity.
Qed.

(** ** The README's exchange, run through the model *)

Example generate_scenario :
  let evs := [GenerateTestComponent.Input "screen_123";
              GenerateTestComponent.Submit;
              GenerateTestComponent.Resolve 0 (NextN Scenario.queued_response)] in
  let final := GenerateTestComponent.run Scenario.gen evs (start GenerateTestComponent.new) in
  wire final
  = [mkRequest POST "http://localhost:8000/api/tests/generate"
               (Some (JObj [("screenId", JStr "screen_123"); ("options", JObj [])]))
               None None]
  /\ get_prop (GenerateTestComponent.result (comp final)) "status" = JStr "queued"
  /\ get_prop (GenerateTestComponent.result (comp final)) "tests" = JArr [].
Proof. repeat split. Qed.

Example list_scenario :
  let answer := JArr [JObj [("testId", JStr "tst_1"); ("status", JStr "passed")]] in
  let evs := [TestListComponent.Init; TestListComponent.Resolve 0 (NextN answer)] in
  let final := TestListComponent.run Scenario.api evs (start TestListComponent.new) in
  wire final = [mkRequest GET "http://localhost:8000/api/tests" None None None]
  /\ TestListComponent.view (comp final) = Some [(JStr "tst_1", JStr "passed")].
Proof. repeat split. Qed.

(** * Further properties of the code *)

(** ** The base URL and the request URL *)

Lemma append_empty_r (s : string) : s ++ "" = s.
Proof. induction s as [|c s IH]; [reflexivity|]. simpl. rewrite IH. reflexivity. Qed.

(** X1: the constructor removes at most the final slash of the
    configured URL: the configured URL is the stored base, followed by a
    slash exactly when the configured URL ended in one. *)
Theorem base_decomposition :
  forall apiBaseUrl : string,
    apiBaseUrl
    = ApiService.base (ApiService.new apiBaseUrl)
      ++ (if JsString.endsWith_slash apiBaseUrl then "/" else "").
Proof.
  intros u. simpl. induction u as [|c rest IH]; [reflexivity|].
  destruct rest as [|d rest'].
  - simpl. destruct (Ascii.eqb c JsString.slash) eqn:E.
    + apply ApiServiceFacts.slash_eqb_true in E. subst c. reflexivity.
    + reflexivity.
  - change (JsString.replace_trailing_slash (String c (String d rest')))
      with (String c (JsString.replace_trailing_slash (String d rest'))).
    change (JsString.endsWith_slash (String c (String d rest')))
      with (JsString.endsWith_slash (String d rest')).
    change (String c (String d rest')
            = String c (JsString.replace_trailing_slash (String d rest')
                        ++ (if JsString.endsWith_slash (String d rest')
                            then "/" else ""))).
    f_equal. exact IH.
Qed.

(** X2: a slash appended to any URL is exactly what the constructor
    takes off again: configuring [u/] stores [u]. *)
Theorem base_of_slash_terminated :
  forall u : string, ApiService.base (ApiService.new (u ++ "/")) = u.
Proof.
  intros u. simpl. induction u as [|c rest IH]; [reflexivity|].
  destruct rest as [|d rest'].
  - reflexivity.
  - change ((String c (String d rest')) ++ "/")
      with (String c (String d (rest' ++ "/"))).
    change (JsString.replace_trailing_slash (String c (String d (rest' ++ "/"))))
      with (String c (JsString.replace_trailing_slash ((String d rest') ++ "/"))).
    rewrite IH. reflexivity.
Qed.

(** X3: for every service and every path, with no condition on either,
    each of get, post, put and delete requests the stored base, one
    slash, and the path less one leading slash. *)
Theorem request_url_shape :
  forall (self : ApiService.t) (path : string) (b : JsValue) (h p : option JsValue),
    let expected := ApiService.base self ++ "/" ++ JsString.drop_leading_slash path in
    url (ApiService.get self path p) = expected
    /\ url (ApiService.post self path b h) = expected
    /\ url (ApiService.put self path b) = expected
    /\ url (ApiService.delete self path) = expected.
Proof.
  intros self path b h p expected.
  assert (E : ApiService.build_url self path = expected).
  { unfold ApiService.build_url, expected.
    rewrite ApiServiceFacts.path_part. reflexivity. }
  repeat split; exact E.
Qed.

(** X4: a path may be given with or without its leading slash: for a
    path that does not start with a slash, each method builds the same
    request for [/path] as for [path]. *)
Theorem leading_slash_optional :
  forall (self : ApiService.t) (path : string) (b : JsValue) (h p : option JsValue),
    JsString.startsWith_slash path = false ->
    ApiService.get self ("/" ++ path) p = ApiService.get self path p
    /\ ApiService.post self ("/" ++ path) b h = ApiService.post self path b h
    /\ ApiService.put self ("/" ++ path) b = ApiService.put self path b
    /\ ApiService.delete self ("/" ++ path) = ApiService.delete self path.
Proof.
  intros self path b h p H.
  assert (E : ApiService.build_url self ("/" ++ path) = ApiService.build_url self path).
  { unfold ApiService.build_url. rewrite H. reflexivity. }
  unfold ApiService.get, ApiService.post, ApiService.put, ApiService.delete.
  rewrite E. repeat split.
Qed.

Lemma leading_slash_optional_witness :
  JsString.startsWith_slash "tests" = false
  /\ ApiService.get Scenario.api "/tests" None = ApiService.get Scenario.api "tests" None.
Proof.
  split; [reflexivity|].
  exact (proj1 (leading_slash_optional Scenario.api "tests" JNull None None eq_refl)).
Defined.

(** X5: the generate request is sent to the same URL whether the base
    URL is configured with one trailing slash or with none: for [u] not
    ending in a slash, both [u] and [u/] give [u/tests/generate]. *)
Theorem generate_url_any_configuration :
  forall (u screenId : string) (options : option (list (string * JsValue))),
    JsString.endsWith_slash u = false ->
    url (TestGeneratorService.generate
           {| TestGeneratorService.api := ApiService.new u |} screenId options)
    = u ++ "/tests/generate"
    /\ url (TestGeneratorService.generate
              {| TestGeneratorService.api := ApiService.new (u ++ "/") |} screenId options)
       = u ++ "/tests/generate".
Proof.
  intros u screenId options H.
  unfold TestGeneratorService.generate, ApiService.post, ApiService.build_url.
  cbn [url TestGeneratorService.api JsString.startsWith_slash].
  rewrite base_of_slash_terminated.
  pose proof (base_decomposition u) as D. rewrite H in D.
  rewrite append_empty_r in D. rewrite <- D.
  split; reflexivity.
Qed.

Lemma generate_url_any_configuration_witness :
  JsString.endsWith_slash "http://localhost:8000/api" = false
  /\ url (TestGeneratorService.generate
            {| TestGeneratorService.api := ApiService.new "http://localhost:8000/api/" |}
            "screen_123" None)
     = "http://localhost:8000/api/tests/generate".
Proof.
  split; [reflexivity|].
  exact (proj2 (generate_url_any_configuration "http://localhost:8000/api"
                  "screen_123" None eq_refl)).
Defined.

(** ** Invariants of the subscriptions in flight *)

Section InflightFacts.

Variable C : Type.
Variable P : nat * Observer C -> Prop.

Lemma inflight_Forall_subscribe o obs (rt : Runtime C) :
  P (fresh rt, obs) ->
  Forall P (inflight rt) -> Forall P (inflight (subscribe o obs rt)).
Proof. intros Ho Hrt. constructor; assumption. Qed.

Lemma inflight_Forall_deliver id n (rt : Runtime C) :
  Forall P (inflight rt) -> Forall P (inflight (deliver id n rt)).
Proof.
  intros H. unfold deliver.
  destruct (find_sub id (inflight rt)) as [obs|]; [|exact H].
  destruct n; [apply Forall_drop_sub, H|].
  destruct (on_error obs); apply Forall_drop_sub, H.
Qed.

End InflightFacts.

(** ** Traces of the generate page *)

Module GenerateTraceFacts.

Import GenerateTestComponent.

Section WithServices.

Variable gen : TestGeneratorService.t.

Lemma wire_step_input (rt : Runtime t) (s : string) :
  wire (step gen rt (Input s)) = wire rt.
Proof. reflexivity. Qed.

(** A submission with a valid form sends the request for the screen id
    in the form, which is not empty. *)
Lemma wire_submit_valid (rt : Runtime t) :
  form_valid (comp rt) = true ->
  exists s, s <> ""
            /\ form_screenId (comp rt) = Some s
            /\ wire (submit gen rt)
               = (wire rt ++ [TestGeneratorService.generate gen s None])%list.
Proof.
  intros H. destruct (GenerateFacts.form_valid_screenId _ H) as [s [Hs Hne]].
  exists s. split; [exact Hne|]. split; [exact Hs|].
  unfold submit. rewrite H, Hs. reflexivity.
Qed.

Lemma wire_submit_invalid (rt : Runtime t) :
  form_valid (comp rt) = false -> submit gen rt = rt.
Proof. intros H. unfold submit. rewrite H. reflexivity. Qed.

Lemma wire_Forall_step (Q : HttpRequest -> Prop) (rt : Runtime t) (ev : Event) :
  (forall s, s <> "" -> Q (TestGeneratorService.generate gen s None)) ->
  Forall Q (wire rt) -> Forall Q (wire (step gen rt ev)).
Proof.
  intros HQ H. destruct ev as [s| |id n]; simpl.
  - exact H.
  - destruct (form_valid (comp rt)) eqn:V.
    + destruct (wire_submit_valid _ V) as [s [Hne [_ ->]]].
      apply Forall_app. split; [exact H|].
      constructor; [apply HQ, Hne|constructor].
    + rewrite (wire_submit_invalid _ V). exact H.
  - rewrite wire_deliver. exact H.
Qed.

Lemma wire_Forall_run (Q : HttpRequest -> Prop) (evs : list Event) (rt : Runtime t) :
  (forall s, s <> "" -> Q (TestGeneratorService.generate gen s None)) ->
  Forall Q (wire rt) -> Forall Q (wire (run gen evs rt)).
Proof.
  intros HQ. revert rt. induction evs as [|ev evs IH]; intros rt H; [exact H|].
  simpl. apply IH, wire_Forall_step; assumption.
Qed.

Lemma wire_length_step (rt : Runtime t) (ev : Event) :
  List.length (wire (step gen rt ev))
  <= List.length (wire rt) + (if Trace.is_submit ev then 1 else 0).
Proof.
  destruct ev as [s| |id n]; simpl.
  - lia.
  - destruct (form_valid (comp rt)) eqn:V.
    + destruct (wire_submit_valid _ V) as [s [_ [_ ->]]].
      rewrite length_app. simpl. lia.
    + rewrite (wire_submit_invalid _ V). lia.
  - rewrite wire_deliver. lia.
Qed.

Lemma wire_length_run (evs : list Event) (rt : Runtime t) :
  List.length (wire (run gen evs rt))
  <= List.length (wire rt) + List.length (filter Trace.is_submit evs).
Proof.
  revert rt. induction evs as [|ev evs IH]; intros rt; simpl; [lia|].
  specialize (IH (step gen rt ev)).
  pose proof (wire_length_step rt ev) as Hs.
  destruct (Trace.is_submit ev); simpl; lia.
Qed.

End WithServices.

End GenerateTraceFacts.

(** X6: whatever the user types and submits and whatever answers
    arrive, every request the generate page has sent is a POST to
    [/tests/generate] under the base, without headers or parameters,
    whose body is [{ screenId, options: {} }] with a non-empty screen
    id. *)
Theorem generate_page_requests_wellformed :
  forall (gen : TestGeneratorService.t) (evs : list GenerateTestComponent.Event),
    Forall (fun req =>
              exists s, s <> ""
                /\ req = mkRequest POST
                           (ApiService.base (TestGeneratorService.api gen)
                            ++ "/tests/generate")
                           (Some (JObj [("screenId", JStr s); ("options", JObj [])]))
                           None None)
           (wire (GenerateTestComponent.run gen evs (start GenerateTestComponent.new))).
Proof.
  intros gen evs. apply GenerateTraceFacts.wire_Forall_run.
  - intros s Hne. exists s. split; [exact Hne|reflexivity].
  - constructor.
Qed.

(** X7: the generate page never sends more requests than the form was
    submitted: no retry, no request on typing or on an answer. *)
Theorem generate_page_requests_bounded :
  forall (gen : TestGeneratorService.t) (evs : list GenerateTestComponent.Event),
    List.length (wire (GenerateTestComponent.run gen evs (start GenerateTestComponent.new)))
    <= List.length (filter Trace.is_submit evs).
Proof.
  intros gen evs.
  apply (GenerateTraceFacts.wire_length_run gen evs (start GenerateTestComponent.new)).
Qed.

Module GenerateResultFacts.

Import GenerateTestComponent.

Section WithServices.

Variable gen : TestGeneratorService.t.

(** Every observer the page installs is [set_result] with no error
    callback; this holds of all subscriptions in flight. *)
Lemma observers_step (rt : Runtime t) (ev : Event) :
  Forall (fun s => on_next (snd s) = set_result /\ on_error (snd s) = None)
         (inflight rt) ->
  Forall (fun s => on_next (snd s) = set_result /\ on_error (snd s) = None)
         (inflight (step gen rt ev)).
Proof.
  intros H. destruct ev as [s| |id n]; simpl.
  - exact H.
  - unfold submit. destruct (form_valid (comp rt)); [|exact H].
    destruct (form_screenId (comp rt)); [|exact H].
    apply inflight_Forall_subscribe; [split; reflexivity|exact H].
  - apply inflight_Forall_deliver, H.
Qed.

(** One step either keeps [result] or replaces it by the response body
    the step delivers. *)
Lemma result_step (rt : Runtime t) (ev : Event) :
  Forall (fun s => on_next (snd s) = set_result /\ on_error (snd s) = None)
         (inflight rt) ->
  result (comp (step gen rt ev)) = result (comp rt)
  \/ In (result (comp (step gen rt ev))) (Trace.bodies [ev]).
Proof.
  intros H. destruct ev as [s| |id [v|e]]; simpl.
  - left. reflexivity.
  - left. rewrite GenerateFacts.comp_submit. reflexivity.
  - unfold deliver. destruct (find_sub id (inflight rt)) as [obs|] eqn:F.
    + right. left.
      pose proof (find_sub_Forall _ H F) as [Hn _]. simpl in Hn.
      simpl. rewrite Hn. reflexivity.
    + left. reflexivity.
  - left. unfold deliver. destruct (find_sub id (inflight rt)) as [obs|] eqn:F.
    + pose proof (find_sub_Forall _ H F) as [_ He]. simpl in He.
      rewrite He. reflexivity.
    + reflexivity.
Qed.

Lemma bodies_cons (ev : Event) (evs : list Event) :
  Trace.bodies (ev :: evs) = (Trace.bodies [ev] ++ Trace.bodies evs)%list.
Proof. destruct ev as [s| |id [v|e]]; reflexivity. Qed.

Lemma result_run (evs : list Event) (rt : Runtime t) :
  Forall (fun s => on_next (snd s) = set_result /\ on_error (snd s) = None)
         (inflight rt) ->
  result (comp (run gen evs rt)) = result (comp rt)
  \/ In (result (comp (run gen evs rt))) (Trace.bodies evs).
Proof.
  revert rt. induction evs as [|ev evs IH]; intros rt H; [left; reflexivity|].
  simpl run. rewrite bodies_cons.
  destruct (IH (step gen rt ev) (observers_step rt ev H)) as [E|I].
  - rewrite E. destruct (result_step rt ev H) as [E'|I'].
    + left. exact E'.
    + right. apply in_or_app. left. exact I'.
  - right. apply in_or_app. right. exact I.
Qed.

(** With an invalid form and nothing in flight, events other than
    typing do nothing at all. *)
Lemma run_without_input (evs : list Event) (rt : Runtime t) :
  form_valid (comp rt) = false ->
  inflight rt = [] ->
  Forall (fun ev => Trace.is_input ev = false) evs ->
  run gen evs rt = rt.
Proof.
  intros V I H. induction H as [|ev evs Hev _ IH]; [reflexivity|].
  simpl. replace (step gen rt ev) with rt; [exact IH|].
  destruct ev as [s| |id n]; simpl.
  - discriminate Hev.
  - symmetry. apply GenerateTraceFacts.wire_submit_invalid, V.
  - unfold deliver. rewrite I. reflexivity.
Qed.

End WithServices.

End GenerateResultFacts.

(** X8: the generate page never makes up or alters a result: after any
    trace of events, [result] is still [undefined] or is, whole, one of
    the response bodies that arrived. *)
Theorem generate_page_result_provenance :
  forall (gen : TestGeneratorService.t) (evs : list GenerateTestComponent.Event),
    let final := GenerateTestComponent.run gen evs (start GenerateTestComponent.new) in
    GenerateTestComponent.result (comp final) = JUndefined
    \/ In (GenerateTestComponent.result (comp final)) (Trace.bodies evs).
Proof.
  intros gen evs final.
  apply (GenerateResultFacts.result_run gen evs (start GenerateTestComponent.new)).
  constructor.
Qed.

(** X9: [submit] has no guard against a request already in flight:
    with a valid form, submitting twice in a row sends the same request
    twice and leaves two subscriptions waiting. *)
Theorem double_submit_sends_twice :
  forall (gen : TestGeneratorService.t) (rt : Runtime GenerateTestComponent.t),
    GenerateTestComponent.form_valid (comp rt) = true ->
    exists s,
      GenerateTestComponent.form_screenId (comp rt) = Some s
      /\ let request := TestGeneratorService.generate gen s None in
         let rt2 := GenerateTestComponent.submit gen (GenerateTestComponent.submit gen rt) in
         wire rt2 = (wire rt ++ [request; request])%list
         /\ List.length (inflight rt2) = 2 + List.length (inflight rt).
Proof.
  intros gen rt H.
  destruct (GenerateFacts.submit_valid gen _ H) as [s [Hs E]].
  exists s. split; [exact Hs|]. intros request rt2. unfold rt2.
  rewrite E. unfold GenerateTestComponent.submit.
  rewrite comp_subscribe, H, Hs. simpl.
  rewrite <- app_assoc. split; reflexivity.
Qed.

Lemma double_submit_sends_twice_witness :
  let rt := GenerateTestComponent.run Scenario.gen
              [GenerateTestComponent.Input "screen_123"]
              (start GenerateTestComponent.new) in
  GenerateTestComponent.form_valid (comp rt) = true
  /\ exists s,
       GenerateTestComponent.form_screenId (comp rt) = Some s
       /\ wire (GenerateTestComponent.submit Scenario.gen
                  (GenerateTestComponent.submit Scenario.gen rt))
          = [TestGeneratorService.generate Scenario.gen s None;
             TestGeneratorService.generate Scenario.gen s None].
Proof.
  split; [reflexivity|].
  destruct (double_submit_sends_twice Scenario.gen
              (GenerateTestComponent.run Scenario.gen
                 [GenerateTestComponent.Input "screen_123"]
                 (start GenerateTestComponent.new)) eq_refl) as [s [Hs [Hw _]]].
  exists s. split; [exact Hs | exact Hw].
Defined.

(** X10: on a page where nothing was typed, submissions and answers do
    nothing: after any trace without typing, the runtime is the initial
    one: no request sent, nothing in flight, no result shown. *)
Theorem untouched_form_sends_nothing :
  forall (gen : TestGeneratorService.t) (evs : list GenerateTestComponent.Event),
    Forall (fun ev => Trace.is_input ev = false) evs ->
    let final := GenerateTestComponent.run gen evs (start GenerateTestComponent.new) in
    final = start GenerateTestComponent.new
    /\ wire final = []
    /\ GenerateTestComponent.view (comp final) = None.
Proof.
  intros gen evs H final.
  assert (E : final = start GenerateTestComponent.new).
  { apply GenerateResultFacts.run_without_input; [reflexivity|reflexivity|exact H]. }
  rewrite E. repeat split.
Qed.

Lemma untouched_form_sends_nothing_witness :
  let evs := [GenerateTestComponent.Submit;
              GenerateTestComponent.Resolve 0 (NextN Scenario.queued_response);
              GenerateTestComponent.Submit] in
  Forall (fun ev => Trace.is_input ev = false) evs
  /\ wire (GenerateTestComponent.run Scenario.gen evs (start GenerateTestComponent.new)) = [].
Proof.
  assert (H : Forall (fun ev => Trace.is_input ev = false)
                [GenerateTestComponent.Submit;
                 GenerateTestComponent.Resolve 0 (NextN Scenario.queued_response);
                 GenerateTestComponent.Submit]).
  { repeat constructor. }
  split; [exact H|].
  exact (proj1 (proj2 (untouched_form_sends_nothing Scenario.gen H))).
Defined.

(** X11: the Result block is shown exactly for a truthy answer: after a
    submission is answered with body [res], the page displays [res] if
    it is truthy and displays nothing if it is [null], [false], [0] or
    the empty string, as if no answer had arrived. *)
Theorem result_block_shown_iff_truthy :
  forall (gen : TestGeneratorService.t) (rt : Runtime GenerateTestComponent.t)
         (res : JsValue),
    GenerateTestComponent.form_valid (comp rt) = true ->
    GenerateTestComponent.view
      (comp (deliver (fresh rt) (NextN res) (GenerateTestComponent.submit gen rt)))
    = if truthy res then Some res else None.
Proof.
  intros gen rt res H. unfold GenerateTestComponent.view.
  rewrite (GenerateFacts.result_after_response gen rt res H). reflexivity.
Qed.

Lemma result_block_shown_iff_truthy_witness :
  let rt := GenerateTestComponent.run Scenario.gen
              [GenerateTestComponent.Input "screen_123"]
              (start GenerateTestComponent.new) in
  GenerateTestComponent.form_valid (comp rt) = true
  /\ GenerateTestComponent.view
       (comp (deliver 0 (NextN JNull) (GenerateTestComponent.submit Scenario.gen rt)))
     = None.
Proof.
  split; [reflexivity|].
  exact (result_block_shown_iff_truthy Scenario.gen
           (GenerateTestComponent.run Scenario.gen
              [GenerateTestComponent.Input "screen_123"]
              (start GenerateTestComponent.new)) JNull eq_refl).
Defined.

(** ** Traces of the test list page *)

Module TestListTraceFacts.

Import TestListComponent.

Lemma render_entries_defined (items : list JsValue) :
  Forall (fun t => is_nullish t = false) items ->
  render_entries items
  = Some (map (fun t => (get_prop t "testId", get_prop t "status")) items).
Proof.
  induction 1 as [|t rest Ht _ IH]; [reflexivity|].
  simpl. unfold render_entry. rewrite Ht, IH. reflexivity.
Qed.

Lemma render_entries_throws (items : list JsValue) :
  Exists (fun t => is_nullish t = true) items ->
  render_entries items = None.
Proof.
  induction 1 as [t rest Ht|t rest _ IH]; simpl.
  - unfold render_entry. rewrite Ht. reflexivity.
  - rewrite IH. destruct (render_entry t); reflexivity.
Qed.

Section WithServices.

Variable api : ApiService.t.

Lemma wire_run (evs : list Event) (rt : Runtime t) :
  wire (run api evs rt)
  = (wire rt ++ repeat (ApiService.get api "/tests" None)
                       (List.length (filter Trace.is_list_init evs)))%list.
Proof.
  revert rt. induction evs as [|ev evs IH]; intros rt; simpl.
  - rewrite app_nil_r. reflexivity.
  - rewrite IH. destruct ev as [|id n]; simpl.
    + rewrite <- app_assoc. reflexivity.
    + rewrite wire_deliver. reflexivity.
Qed.

(** The answer to the request of [ngOnInit] becomes [tests], whole. *)
Lemma tests_after_response (rt : Runtime t) (x : JsValue) :
  tests (comp (deliver (fresh rt) (NextN x) (ngOnInit api rt))) = x.
Proof. unfold ngOnInit. rewrite deliver_next_subscribed. reflexivity. Qed.

End WithServices.

End TestListTraceFacts.

(** X12: the test list page sends one request per [ngOnInit] and no
    other: after any trace, the requests sent are as many copies of
    GET [/tests] under the base, with no body, headers or parameters,
    as [ngOnInit] ran. *)
Theorem list_page_requests :
  forall (api : ApiService.t) (evs : list TestListComponent.Event),
    wire (TestListComponent.run api evs (start TestListComponent.new))
    = repeat (mkRequest GET (ApiService.base api ++ "/tests") None None None)
             (List.length (filter Trace.is_list_init evs)).
Proof.
  intros api evs.
  rewrite (TestListTraceFacts.wire_run api evs (start TestListComponent.new)).
  reflexivity.
Qed.

(** X13: when [/tests] answers with an array none of whose elements
    is [null] or [undefined], the list shows one entry per element, in
    the order of the array; entry [i] shows the [testId] and [status] of
    element [i], each [undefined] where the element lacks it.  When some
    element is [null] or [undefined], reading its properties throws and
    the list is not rendered. *)
Theorem list_page_renders_array :
  forall (api : ApiService.t) (rt : Runtime TestListComponent.t)
         (items : list JsValue),
    let c := comp (deliver (fresh rt) (NextN (JArr items))
                           (TestListComponent.ngOnInit api rt)) in
    (Forall (fun t => is_nullish t = false) items ->
     exists entries,
       TestListComponent.view c = Some entries
       /\ List.length entries = List.length items
       /\ forall i item,
            nth_error items i = Some item ->
            nth_error entries i = Some (get_prop item "testId", get_prop item "status"))
    /\ (Exists (fun t => is_nullish t = true) items ->
        TestListComponent.view c = None).
Proof.
  intros api rt items c.
  assert (E : TestListComponent.tests c = JArr items)
    by apply TestListTraceFacts.tests_after_response.
  unfold TestListComponent.view. rewrite E. split.
  - intros H. rewrite (TestListTraceFacts.render_entries_defined H).
    eexists. split; [reflexivity|]. split.
    + apply length_map.
    + intros i item Hi.
      apply (map_nth_error
               (fun t => (get_prop t "testId", get_prop t "status")) _ _ Hi).
  - apply TestListTraceFacts.render_entries_throws.
Qed.

Lemma list_page_renders_array_witness :
  let answer := [JObj [("testId", JStr "tst_1"); ("status", JStr "passed")];
                 JObj [("testId", JStr "tst_2")]] in
  Forall (fun t => is_nullish t = false) answer
  /\ (exists entries,
        TestListComponent.view
          (comp (deliver 0 (NextN (JArr answer))
                   (TestListComponent.ngOnInit Scenario.api
                      (start TestListComponent.new))))
        = Some entries
        /\ List.length entries = 2
        /\ nth_error entries 1 = Some (JStr "tst_2", JUndefined))
  /\ Exists (fun t => is_nullish t = true) [JNull]
  /\ TestListComponent.view
       (comp (deliver 0 (NextN (JArr [JNull]))
                (TestListComponent.ngOnInit Scenario.api (start TestListComponent.new))))
     = None.
Proof.
  assert (H : Forall (fun t => is_nullish t = false)
                [JObj [("testId", JStr "tst_1"); ("status", JStr "passed")];
                 JObj [("testId", JStr "tst_2")]]).
  { repeat constructor. }
  assert (N : Exists (fun t => is_nullish t = true) [JNull]).
  { constructor. reflexivity. }
  split; [exact H|]. split; [|split; [exact N|]].
  - destruct (proj1 (list_page_renders_array Scenario.api
                       (start TestListComponent.new) _) H)
      as [entries [Hv [Hlen Hnth]]].
    exists entries. split; [exact Hv|]. split; [exact Hlen|].
    exact (Hnth 1 (JObj [("testId", JStr "tst_2")]) eq_refl).
  - exact (proj2 (list_page_renders_array Scenario.api
                    (start TestListComponent.new) [JNull]) N).
Defined.

(** X14: when [/tests] answers with an object (for instance an envelope
    with [data] and [meta]) instead of an array, the component stores it
    all the same and the template cannot iterate it. *)
Theorem list_page_object_answer :
  forall (api : ApiService.t) (rt : Runtime TestListComponent.t)
         (fields : list (string * JsValue)),
    let c := comp (deliver (fresh rt) (NextN (JObj fields))
                           (TestListComponent.ngOnInit api rt)) in
    TestListComponent.tests c = JObj fields
    /\ TestListComponent.view c = None.
Proof.
  intros api rt fields c.
  assert (E : TestListComponent.tests c = JObj fields)
    by apply TestListTraceFacts.tests_after_response.
  unfold TestListComponent.view. rewrite E. split; reflexivity.
Qed.

(** ** The dashboard page *)

Module DashboardFacts.

Import DashboardComponent.

Section WithServices.

Variable api : ApiService.t.

Lemma dashboard_no_error_callbacks_step (rt : Runtime t) (ev : Event) :
  no_error_callbacks rt -> no_error_callbacks (step api rt ev).
Proof.
  intros H. destruct ev as [|id n]; simpl.
  - apply no_error_callbacks_subscribe; [reflexivity|exact H].
  - apply no_error_callbacks_deliver, H.
Qed.

Lemma dashboard_comp_step_unresolved (rt : Runtime t) (ev : Event) :
  no_error_callbacks rt ->
  is_resolution ev = false ->
  comp (step api rt ev) = comp rt.
Proof.
  intros Hrt Hev. destruct ev as [|id [v|e]]; simpl.
  - reflexivity.
  - discriminate Hev.
  - apply comp_deliver_error, Hrt.
Qed.

Lemma dashboard_comp_run_unresolved (evs : list Event) (rt : Runtime t) :
  no_error_callbacks rt ->
  Forall (fun ev => is_resolution ev = false) evs ->
  comp (run api evs rt) = comp rt.
Proof.
  revert rt. induction evs as [|ev evs IH]; intros rt Hrt Hevs; [reflexivity|].
  inversion Hevs as [|? ? Hev Hrest]; subst. simpl.
  rewrite IH.
  - apply dashboard_comp_step_unresolved; assumption.
  - apply dashboard_no_error_callbacks_step, Hrt.
  - exact Hrest.
Qed.

Lemma summary_after_response (rt : Runtime t) (x : JsValue) :
  summary (comp (deliver (fresh rt) (NextN x) (ngOnInit api rt))) = x.
Proof. unfold ngOnInit. rewrite deliver_next_subscribed. reflexivity. Qed.

End WithServices.

End DashboardFacts.

(** X15: until a response body for [/dashboard/summary] arrives, and
    also after the call has failed, the dashboard holds [undefined] and
    renders neither of its two lines. *)
Theorem dashboard_blank_before_resolution :
  forall (api : ApiService.t) (evs : list DashboardComponent.Event),
    Forall (fun ev => DashboardComponent.is_resolution ev = false) evs ->
    let c := comp (DashboardComponent.run api evs (start DashboardComponent.new)) in
    DashboardComponent.summary c = JUndefined
    /\ DashboardComponent.view c = [].
Proof.
  intros api evs H c.
  assert (E : c = DashboardComponent.new).
  { unfold c. rewrite DashboardFacts.dashboard_comp_run_unresolved.
    - reflexivity.
    - apply no_error_callbacks_start.
    - exact H. }
  rewrite E. split; reflexivity.
Qed.

Lemma dashboard_blank_before_resolution_witness :
  let evs := [DashboardComponent.Init;
              DashboardComponent.Resolve 0
                (ErrorN (http_error_response 500 Scenario.rate_limit))] in
  Forall (fun ev => DashboardComponent.is_resolution ev = false) evs
  /\ DashboardComponent.view
       (comp (DashboardComponent.run Scenario.api evs (start DashboardComponent.new)))
     = [].
Proof.
  assert (H : Forall (fun ev => DashboardComponent.is_resolution ev = false)
                [DashboardComponent.Init;
                 DashboardComponent.Resolve 0
                   (ErrorN (http_error_response 500 Scenario.rate_limit))]).
  { repeat constructor. }
  split; [exact H|].
  exact (proj2 (dashboard_blank_before_resolution Scenario.api H)).
Defined.

(** X16: once [/dashboard/summary] is answered with a truthy body, the
    dashboard renders exactly two lines, the body's [activeJobs] and its
    [lastRun], in that order; nothing else of the body, such as
    [failures], is shown. *)
Theorem dashboard_shows_two_fields :
  forall (api : ApiService.t) (rt : Runtime DashboardComponent.t) (x : JsValue),
    truthy x = true ->
    DashboardComponent.view
      (comp (deliver (fresh rt) (NextN x) (DashboardComponent.ngOnInit api rt)))
    = [("Active Jobs: ", get_prop x "activeJobs");
       ("Last Run: ", get_prop x "lastRun")].
Proof.
  intros api rt x H. unfold DashboardComponent.view.
  rewrite DashboardFacts.summary_after_response, H. reflexivity.
Qed.

Lemma dashboard_shows_two_fields_witness :
  let x := JObj [("activeJobs", JNum 2); ("lastRun", JStr "2024-01-01T00:00:00Z");
                 ("failures", JNum 3)] in
  truthy x = true
  /\ DashboardComponent.view
       (comp (deliver 0 (NextN x)
                (DashboardComponent.ngOnInit Scenario.api (start DashboardComponent.new))))
     = [("Active Jobs: ", JNum 2); ("Last Run: ", JStr "2024-01-01T00:00:00Z")].
Proof.
  split; [reflexivity|].
  exact (dashboard_shows_two_fields Scenario.api (start DashboardComponent.new)
           (JObj [("activeJobs", JNum 2); ("lastRun", JStr "2024-01-01T00:00:00Z");
                  ("failures", JNum 3)]) eq_refl).
Defined.

(** ** Routes *)

Module AppRoutesFacts.

Import AppRoutes.

Lemma segments_eqb_eq (a b : list string) : segments_eqb a b = true <-> a = b.
Proof.
  revert b. induction a as [|x a IH]; intros [|y b]; simpl;
    try (split; [discriminate|discriminate]); [split; reflexivity|].
  rewrite andb_true_iff, String.eqb_eq, IH. split.
  - intros [-> ->]. reflexivity.
  - intros [= -> ->]. split; reflexivity.
Qed.

Lemma segments_eqb_neq (a b : list string) : a <> b -> segments_eqb a b = false.
Proof.
  intros H. destruct (segments_eqb a b) eqn:E; [|reflexivity].
  apply segments_eqb_eq in E. contradiction.
Qed.

(** A URL that is none of the four declared paths falls through to the
    wildcard route. *)
Lemma first_match_unknown (url : list string) :
  url <> [] -> url <> ["generate"] -> url <> ["tests"] -> url <> ["settings"] ->
  first_match routes url = Some {| path := Wildcard; target := RedirectTo [] |}.
Proof.
  intros H0 H1 H2 H3. unfold routes, first_match, matches. cbn [path].
  rewrite (segments_eqb_neq (not_eq_sym H0)).
  rewrite (segments_eqb_neq (not_eq_sym H1)).
  rewrite (segments_eqb_neq (not_eq_sym H2)).
  rewrite (segments_eqb_neq (not_eq_sym H3)).
  reflexivity.
Qed.

End AppRoutesFacts.

(** X17: every URL that is not one of the four declared paths is caught
    by the wildcard route and redirected to the root: the dashboard is
    shown and the URL settles on the empty path. *)
Theorem unknown_url_goes_to_dashboard :
  forall url : list string,
    url <> [] -> url <> ["generate"] -> url <> ["tests"] -> url <> ["settings"] ->
    AppRoutes.resolve url = Some (AppRoutes.Dashboard, []).
Proof.
  intros url H0 H1 H2 H3. unfold AppRoutes.resolve.
  change (List.length AppRoutes.routes) with 5.
  cbn [AppRoutes.navigate].
  rewrite (AppRoutesFacts.first_match_unknown H0 H1 H2 H3).
  reflexivity.
Qed.

Lemma unknown_url_goes_to_dashboard_witness :
  AppRoutes.resolve ["tests"; "42"] = Some (AppRoutes.Dashboard, []).
Proof.
  apply unknown_url_goes_to_dashboard; discriminate.
Defined.

(** X18: navigation never fails and never loops: every URL lands on one
    of the four pages, with the URL either kept as it is or reset to the
    root. *)
Theorem navigation_total :
  forall url : list string,
    exists page final,
      AppRoutes.resolve url = Some (page, final) /\ (final = url \/ final = []).
Proof.
  intros url.
  destruct (list_eq_dec string_dec url []) as [->|H0].
  { exists AppRoutes.Dashboard, []. split; [reflexivity|left; reflexivity]. }
  destruct (list_eq_dec string_dec url ["generate"]) as [->|H1].
  { exists AppRoutes.GenerateTest, ["generate"]. split; [reflexivity|left; reflexivity]. }
  destruct (list_eq_dec string_dec url ["tests"]) as [->|H2].
  { exists AppRoutes.TestList, ["tests"]. split; [reflexivity|left; reflexivity]. }
  destruct (list_eq_dec string_dec url ["settings"]) as [->|H3].
  { exists AppRoutes.Settings, ["settings"]. split; [reflexivity|left; reflexivity]. }
  exists AppRoutes.Dashboard, []. split; [|right; reflexivity].
  unfold AppRoutes.resolve.
  change (List.length AppRoutes.routes) with 5.
  cbn [AppRoutes.navigate].
  rewrite (AppRoutesFacts.first_match_unknown H0 H1 H2 H3).
  reflexivity.
Qed.

(** X19: the sidebar has no dead or redirected link and leaves no page
    out: each of its links is routed to a page with the URL kept, and
    each of the four pages is the target of one of its links. *)
Theorem sidebar_links_cover_pages :
  Forall (fun link => exists page,
              AppRoutes.resolve (snd link) = Some (page, snd link))
         AppRoutes.sidebar_links
  /\ forall page : AppRoutes.Page,
       exists link, In link AppRoutes.sidebar_links
                    /\ AppRoutes.resolve (snd link) = Some (page, snd link).
Proof.
  split.
  - repeat constructor; eexists; reflexivity.
  - intros [ | | | ].
    + exists ("Dashboard", []). split; [simpl; auto|reflexivity].
    + exists ("Generate Test", ["generate"]). split; [simpl; auto|reflexivity].
    + exists ("Tests", ["tests"]). split; [simpl; auto|reflexivity].
    + exists ("Settings", ["settings"]). split; [simpl; auto|reflexivity].
Qed.
